(** * Air Quality Dashboard: data preparation, filtering and aggregation

    A shallow embedding of [dashboard/dashboard.py].  The script is a
    straight-line pipeline over a pandas frame:

      load_data -> to_datetime / categorize -> date and station filter
                -> means, daily resample, per-station groupby, value_counts.

    Conventions of the embedding.
    - A frame is the list of its rows, in row order.
    - A [datetime64[ns]] cell is the number of nanoseconds since the epoch
      ([Z]); a [datetime.date] returned by the date picker is a day number.
    - A pollutant cell is [NaN] (an empty CSV cell) or a number, given by
      its exact rational value; comparisons against the integer thresholds
      are the IEEE ones.  [mean] is the mean without rounding: it tells
      whether a pandas mean is NaN, not its last bits.  The binary64 value
      of a mean is modelled apart ([Series_mean_f64]).
    - The [date] and [station] cells of a row are present, and so are the
      labels of a file that brings its own category column (a blank label
      would be NaN, which [value_counts] leaves out). *)

From Stdlib Require Import ZArith QArith Qreduction Lqa SpecFloat.
From stdpp Require Import base decidable option list strings sorting.

Local Open Scope string_scope.
Local Open Scope Z_scope.

(** ** Cells *)

Inductive value : Type :=
  | NaN
  | Num (q : Q).

#[global] Instance Q_eq_dec : EqDecision Q.
Proof. solve_decision. Defined.

#[global] Instance value_eq_dec : EqDecision value.
Proof. solve_decision. Defined.

(** [pm <= k] for a float cell and an integer literal: false on [NaN]. *)
Definition value_le (pm : value) (k : Z) : bool :=
  match pm with
  | NaN => false
  | Num q => Qle_bool q (inject_Z k)
  end.

(** ** Category classifier (dashboard.py, lines 24-32) *)

Definition categorize_pm25 (pm : value) : string :=
  if value_le pm 50 then "Good"
  else if value_le pm 100 then "Moderate"
  else if value_le pm 150 then "Unhealthy for Sensitive Groups"
  else "Unhealthy".

(** ** Dataset loader (dashboard.py, lines 11-21)

    [os.path.exists] and [pd.read_csv] belong to the environment.  A call
    either returns or raises; [try ... except Exception] turns a raise into
    the handler's value. *)

Inductive outcome (A : Type) : Type :=
  | Returned (a : A)
  | Raised.
Arguments Returned {A} a.
Arguments Raised {A}.

Definition outcome_map {A B} (f : A -> B) (o : outcome A) : outcome B :=
  match o with
  | Returned a => Returned (f a)
  | Raised => Raised
  end.

Definition try_except {A} (body : outcome A) (handler : A) : A :=
  match body with
  | Returned a => a
  | Raised => handler
  end.

Section Loader.
Context {DataFrame : Type}.
Variable path_exists : string -> bool.
Variable read_csv : string -> outcome DataFrame.

(** The result is [None] for Python's [None]. *)
Definition load_data : option DataFrame :=
  try_except
    (if path_exists "dashboard/main_data.csv" then
       outcome_map Some (read_csv "dashboard/main_data.csv")
     else if path_exists "main_data.csv" then
       outcome_map Some (read_csv "main_data.csv")
     else Returned None)
    None.
End Loader.

(** ** Frames *)

(** One row; [C] is the type of its [Air_Quality_Category] cell, [unit] as
    long as the frame has no such column. *)
Record Row {C : Type} : Type := mkRow {
  date : Z;
  station : string;
  PM2_5 : value;
  PM10 : value;
  SO2 : value;
  NO2 : value;
  Air_Quality_Category : C
}.
Arguments Row : clear implicits.
Arguments mkRow {C}.

(** The frame as read from the CSV file (dates already through
    [pd.to_datetime]): the category column is optional in the header. *)
Inductive csv_frame : Type :=
  | WithoutCategory (rows : list (Row unit))
  | WithCategory (rows : list (Row string)).

(** [all_df['PM2.5'].apply(categorize_pm25)] stored as the new column. *)
Definition assign_category (r : Row unit) : Row string :=
  {| date := date r; station := station r;
     PM2_5 := PM2_5 r; PM10 := PM10 r; SO2 := SO2 r; NO2 := NO2 r;
     Air_Quality_Category := categorize_pm25 (PM2_5 r) |}.

(** Lines 47-48: [if 'Air_Quality_Category' not in all_df.columns]. *)
Definition preprocess (df : csv_frame) : list (Row string) :=
  match df with
  | WithoutCategory rows => assign_category <$> rows
  | WithCategory rows => rows
  end.

(** The cells of [r'] other than the category are those of [r]. *)
Definition same_measurements {C D} (r : Row C) (r' : Row D) : Prop :=
  date r' = date r /\ station r' = station r /\ PM2_5 r' = PM2_5 r /\
  PM10 r' = PM10 r /\ SO2 r' = SO2 r /\ NO2 r' = NO2 r.

(** ** Sidebar and filter (lines 55-78) *)

Section Unique.
Context {A : Type} `{EqDecision A}.

(** [Series.unique()]: distinct values in order of first appearance. *)
Fixpoint unique_from (seen l : list A) : list A :=
  match l with
  | [] => []
  | x :: l' =>
      if decide (x ∈ seen) then unique_from seen l'
      else x :: unique_from (x :: seen) l'
  end.

Definition unique (l : list A) : list A := unique_from [] l.
End Unique.

Definition station_list (all_df : list (Row string)) : list string :=
  unique (station <$> all_df).

Definition ns_per_day : Z := 86400000000000.

(** Comparing a datetime column with [str(d)], [d] a [datetime.date]: the
    string ["YYYY-MM-DD"] is parsed to the timestamp of that day at 00:00. *)
Definition Timestamp_of_date (d : Z) : Z := d * ns_per_day.

Definition date_mask (start_date end_date : Z) (r : Row string) : Prop :=
  Timestamp_of_date start_date <= date r ∧ date r <= Timestamp_of_date end_date.

Definition isin (selected_station : list string) (r : Row string) : Prop :=
  station r ∈ selected_station.

#[global] Instance date_mask_dec s e r : Decision (date_mask s e r).
Proof. unfold date_mask. apply _. Defined.

#[global] Instance isin_dec sel r : Decision (isin sel r).
Proof. unfold isin. apply _. Defined.

Definition main_df (all_df : list (Row string)) (start_date end_date : Z)
    (selected_station : list string) : list (Row string) :=
  let main_df := filter (date_mask start_date end_date) all_df in
  match selected_station with
  | [] => main_df
  | _ :: _ => filter (isin selected_station) main_df
  end.

(** ** Aggregations (lines 83-120) *)

Definition notna (v : value) : option Q :=
  match v with
  | NaN => None
  | Num q => Some q
  end.

Definition Qsum (qs : list Q) : Q := foldr Qplus 0%Q qs.

Definition Qmean (qs : list Q) : Q :=
  Qred (Qsum qs / inject_Z (Z.of_nat (length qs))).

(** [Series.mean()], [skipna=True]: NaN cells are left out; the mean of no
    number at all is NaN. *)
Definition mean (vs : list value) : value :=
  match omap notna vs with
  | [] => NaN
  | q :: qs => Num (Qmean (q :: qs))
  end.

(** The calendar day of a timestamp (bins of [rule='D'] start at 00:00). *)
Definition day_of (t : Z) : Z := t `div` ns_per_day.

Definition on_day (k : Z) (r : Row string) : Prop := day_of (date r) = k.

#[global] Instance on_day_dec k r : Decision (on_day k r).
Proof. unfold on_day. apply _. Defined.

(** [df.resample(rule='D', on='date').agg({"PM2.5": "mean"}).reset_index()]:
    one bin per calendar day from the day of the earliest row to the day of
    the latest one, each with the mean of the rows that fall into it. *)
Definition daily_df (df : list (Row string)) : list (Z * value) :=
  match (day_of ∘ date) <$> df with
  | [] => []
  | d :: ds =>
      let first := foldr Z.min d ds in
      let last := foldr Z.max d ds in
      (λ k, (Timestamp_of_date k, mean (PM2_5 <$> filter (on_day k) df)))
        <$> seqZ first (last - first + 1)
  end.

(** The days spanned by a frame: between the day of some row and the day of
    some row. *)
Definition in_day_span (df : list (Row string)) (k : Z) : Prop :=
  exists r1 r2, r1 ∈ df /\ r2 ∈ df /\
                day_of (date r1) <= k /\ k <= day_of (date r2).

Record station_row : Type := mkStationRow {
  sr_station : string;
  sr_PM2_5 : value;
  sr_PM10 : value;
  sr_SO2 : value;
  sr_NO2 : value
}.

Definition at_station (k : string) (r : Row string) : Prop := station r = k.

#[global] Instance at_station_dec k r : Decision (at_station k r).
Proof. unfold at_station. apply _. Defined.

(** [df.groupby('station')[[...]].mean().reset_index()]: one row per
    distinct station, in sorted key order. *)
Definition station_avg (df : list (Row string)) : list station_row :=
  (λ k, let g := filter (at_station k) df in
        mkStationRow k (mean (PM2_5 <$> g)) (mean (PM10 <$> g))
                       (mean (SO2 <$> g)) (mean (NO2 <$> g)))
    <$> merge_sort String.le (unique (station <$> df)).

(** [melt(id_vars='station', ...)]: the value columns stacked one after the
    other, as rows (station, Pollutant, Concentration). *)
Definition melt (avg : list station_row) : list (string * string * value) :=
  ((λ r, (sr_station r, "PM2.5", sr_PM2_5 r)) <$> avg) ++
  ((λ r, (sr_station r, "PM10", sr_PM10 r)) <$> avg) ++
  ((λ r, (sr_station r, "SO2", sr_SO2 r)) <$> avg) ++
  ((λ r, (sr_station r, "NO2", sr_NO2 r)) <$> avg).

(** Lines 104-115: the comparison is computed only for a non-empty station
    selection; otherwise a hint is shown and there is no table. *)
Definition station_melt (selected_station : list string)
    (df : list (Row string)) : option (list (string * string * value)) :=
  match selected_station with
  | [] => None
  | _ :: _ => Some (melt (station_avg df))
  end.

Section ValueCounts.
Context {A : Type} `{EqDecision A}.

Definition occurrences (x : A) (l : list A) : nat :=
  length (filter (λ y, y = x) l).

(** Insertion for a stable sort by descending count. *)
Fixpoint insert_desc (p : A * nat) (l : list (A * nat)) : list (A * nat) :=
  match l with
  | [] => [p]
  | q :: l' =>
      if decide (p.2 < q.2)%nat then q :: insert_desc p l'
      else p :: q :: l'
  end.

(** [Series.value_counts()]: the distinct values with their counts, most
    frequent first; values of equal count keep their order of first
    appearance. *)
Definition value_counts (l : list A) : list (A * nat) :=
  foldr insert_desc [] ((λ x, (x, occurrences x l)) <$> unique l).
End ValueCounts.

Definition category_counts (df : list (Row string)) : list (string * nat) :=
  value_counts (Air_Quality_Category <$> df).

Definition avg_pm25 (df : list (Row string)) : value := mean (PM2_5 <$> df).
Definition avg_pm10 (df : list (Row string)) : value := mean (PM10 <$> df).

(** Everything the page shows for one filter selection. *)
Record views : Type := mkViews {
  v_avg_pm25 : value;
  v_avg_pm10 : value;
  v_daily_df : list (Z * value);
  v_station_melt : option (list (string * string * value));
  v_category_counts : list (string * nat)
}.

Definition aggregate (selected_station : list string)
    (df : list (Row string)) : views :=
  {| v_avg_pm25 := avg_pm25 df;
     v_avg_pm10 := avg_pm10 df;
     v_daily_df := daily_df df;
     v_station_melt := station_melt selected_station df;
     v_category_counts := category_counts df |}.

(** The [else] branch of the script, for a loaded frame and a selection. *)
Definition dashboard (csv : csv_frame) (start_date end_date : Z)
    (selected_station : list string) : views :=
  let all_df := preprocess csv in
  aggregate selected_station
    (main_df all_df start_date end_date selected_station).

(** Lines 38-42: without a frame the page is the error message alone. *)
Inductive page : Type :=
  | DataNotFound
  | Views (v : views).

Definition run (path_exists : string -> bool)
    (read_csv : string -> outcome csv_frame) (start_date end_date : Z)
    (selected_station : list string) : page :=
  match load_data path_exists read_csv with
  | None => DataNotFound
  | Some all_df => Views (dashboard all_df start_date end_date selected_station)
  end.

(** ** Sidebar defaults (lines 55-71) *)

(** [default=[station_list[0]]]: indexing the empty list raises. *)
Definition default_station (all_df : list (Row string)) : outcome (list string) :=
  match station_list all_df with
  | [] => Raised
  | s :: _ => Returned [s]
  end.

(** [all_df['date'].min()] and [.max()]; [None] is NaT, the answer for a
    column without cells. *)
Definition min_date (all_df : list (Row string)) : option Z :=
  match date <$> all_df with
  | [] => None
  | t :: ts => Some (foldr Z.min t ts)
  end.

Definition max_date (all_df : list (Row string)) : option Z :=
  match date <$> all_df with
  | [] => None
  | t :: ts => Some (foldr Z.max t ts)
  end.

(** [value=[min_date, max_date]]: the picker shows, and returns while the
    user leaves it alone, the calendar days of the two timestamps. *)
Definition default_dates (all_df : list (Row string)) : option (Z * Z) :=
  match min_date all_df, max_date all_df with
  | Some lo, Some hi => Some (day_of lo, day_of hi)
  | _, _ => None
  end.

(** The labels the classifier can give. *)
Definition categories : list string :=
  ["Good"; "Moderate"; "Unhealthy for Sensitive Groups"; "Unhealthy"].

(** Rows whose timestamp is 00:00 of some day. *)
Definition at_midnight (r : Row string) : Prop :=
  date r = Timestamp_of_date (day_of (date r)).

(** ** Means up to their float value *)

(** [pd.isna] on a cell. *)
Definition isna (v : value) : bool :=
  match v with
  | NaN => true
  | Num _ => false
  end.

(** A table of means with each value reduced to missing or present. *)
Definition na_pattern {K : Type} (t : list (K * value)) : list (K * bool) :=
  (λ p, (p.1, isna p.2)) <$> t.

(** ** The float value of a mean (lines 83 and 86)

    pandas keeps a pollutant column as binary64 numbers and
    [Series.mean()] leaves the NaN cells out, adds the others in binary64
    from the first row to the last and divides by their number.  The sum
    runs in plain row order only for a column of fewer than eight cells
    (longer columns are added blockwise by numpy), so the float value is
    given for those columns and left open ([None]) for longer ones. *)

Definition f64 : Type := spec_float.

Definition f64_add : f64 -> f64 -> f64 := SFadd 53 1024.
Definition f64_div : f64 -> f64 -> f64 := SFdiv 53 1024.

(** The binary64 number nearest to an integer. *)
Definition f64_of_Z (z : Z) : f64 := binary_normalize 53 1024 z 0 false.

(** The binary64 number of a cell of exact value [q] (the quotient of two
    integers below 2^53 is rounded once, so it is [q] itself when [q] is a
    binary64 number, and the number a CSV field such as 119.8 is read as). *)
Definition f64_of_Q (q : Q) : f64 :=
  f64_div (f64_of_Z (Qnum q)) (f64_of_Z (Z.pos (Qden q))).

Definition Series_mean_f64 (cells : list value) : option f64 :=
  if decide (length cells < 8)%nat then
    Some match omap notna cells with
         | [] => S754_nan
         | q :: qs =>
             f64_div (foldl f64_add (S754_zero false) (f64_of_Q <$> q :: qs))
                     (f64_of_Z (Z.of_nat (length (q :: qs))))
         end
  else None.

Definition avg_pm25_f64 (df : list (Row string)) : option f64 :=
  Series_mean_f64 (PM2_5 <$> df).

(** ** Sample rows

    Monitoring-station rows used in the examples below.  Day 15765 is
    2013-03-01. *)

Definition ns_per_hour : Z := 3600000000000.

Definition reading (day hour : Z) (st : string) (pm25 : value) : Row string :=
  mkRow (Timestamp_of_date day + hour * ns_per_hour) st pm25 NaN NaN NaN
        (categorize_pm25 pm25).

(** The binary64 numbers written 119.8, 150.1 and 87.7, by their exact
    values. *)
Definition pm_119_8 : Q := 8430175552484147 # 70368744177664.
Definition pm_150_1 : Q := 5281174250533683 # 35184372088832.
Definition pm_87_7 : Q := 6171338864381133 # 70368744177664.

(** * Properties *)

(** ** Classifier *)

Lemma value_le_Num q k : value_le (Num q) k = true <-> (q <= inject_Z k)%Q.
Proof. apply Qle_bool_iff. Qed.

Lemma value_le_Num_false q k : value_le (Num q) k = false <-> (inject_Z k < q)%Q.
Proof.
  rewrite <- not_true_iff_false, value_le_Num. split.
  - apply Qnot_le_lt.
  - apply Qlt_not_le.
Qed.

Lemma value_le_mono q j k :
  j <= k -> value_le (Num q) k = false -> value_le (Num q) j = false.
Proof.
  rewrite !value_le_Num_false. intros Hjk Hk.
  eapply Qle_lt_trans; [|exact Hk].
  rewrite <- Zle_Qle. exact Hjk.
Qed.

(** C1: the four PM2.5 bands, each upper boundary belonging to the lower
    category: [pm <= 50] is Good, [50 < pm <= 100] is Moderate,
    [100 < pm <= 150] is Unhealthy for Sensitive Groups, [pm > 150] is
    Unhealthy, and 50, 100, 150 fall in the lower band. *)
Theorem categorize_pm25_bands (q : Q) :
  ((q <= 50)%Q -> categorize_pm25 (Num q) = "Good") /\
  ((50 < q)%Q /\ (q <= 100)%Q -> categorize_pm25 (Num q) = "Moderate") /\
  ((100 < q)%Q /\ (q <= 150)%Q ->
     categorize_pm25 (Num q) = "Unhealthy for Sensitive Groups") /\
  ((150 < q)%Q -> categorize_pm25 (Num q) = "Unhealthy") /\
  categorize_pm25 (Num 50) = "Good" /\
  categorize_pm25 (Num 100) = "Moderate" /\
  categorize_pm25 (Num 150) = "Unhealthy for Sensitive Groups".
Proof.
  unfold categorize_pm25. repeat split; try reflexivity.
  - intros H. apply (value_le_Num q 50) in H. now rewrite H.
  - intros [Hlo Hhi].
    apply (value_le_Num_false q 50) in Hlo. apply (value_le_Num q 100) in Hhi.
    now rewrite Hlo, Hhi.
  - intros [Hlo Hhi].
    apply (value_le_Num_false q 100) in Hlo. apply (value_le_Num q 150) in Hhi.
    rewrite (value_le_mono q 50 100), Hlo, Hhi by (lia || assumption).
    reflexivity.
  - intros Hlo. apply (value_le_Num_false q 150) in Hlo.
    rewrite (value_le_mono q 50 150), (value_le_mono q 100 150), Hlo
      by (lia || assumption).
    reflexivity.
Qed.

Lemma categorize_pm25_bands_witness :
  categorize_pm25 (Num 12.5) = "Good" /\
  categorize_pm25 (Num 75) = "Moderate" /\
  categorize_pm25 (Num (1201 # 10)) = "Unhealthy for Sensitive Groups" /\
  categorize_pm25 (Num 999) = "Unhealthy".
Proof.
  split; [|split; [|split]].
  - apply (proj1 (categorize_pm25_bands 12.5)). vm_compute. discriminate.
  - apply (proj1 (proj2 (categorize_pm25_bands 75))).
    split; vm_compute; (reflexivity || discriminate).
  - apply (proj1 (proj2 (proj2 (categorize_pm25_bands (1201 # 10))))).
    split; vm_compute; (reflexivity || discriminate).
  - apply (proj1 (proj2 (proj2 (proj2 (categorize_pm25_bands 999))))).
    vm_compute. reflexivity.
Defined.

(** C10: a missing PM2.5 cell does not raise: all three comparisons are
    false on NaN, so the classifier reaches the last branch and answers
    Unhealthy. *)
Theorem categorize_pm25_NaN :
  value_le NaN 50 = false /\ value_le NaN 100 = false /\
  value_le NaN 150 = false /\ categorize_pm25 NaN = "Unhealthy".
Proof. repeat split. Qed.

(** ** Loader *)

(** C5: [load_data] looks at "dashboard/main_data.csv" first and at
    "main_data.csv" second, and reads the first one that exists; it answers
    [None] when neither exists and when the read raises (without trying the
    other location); a frame it returns is the complete result of that one
    read. *)
Theorem load_data_first_existing {DataFrame : Type}
    (path_exists : string -> bool) (read_csv : string -> outcome DataFrame) :
  let load := load_data path_exists read_csv in
  (path_exists "dashboard/main_data.csv" = true ->
     forall df, read_csv "dashboard/main_data.csv" = Returned df ->
     load = Some df) /\
  (path_exists "dashboard/main_data.csv" = false ->
   path_exists "main_data.csv" = true ->
     forall df, read_csv "main_data.csv" = Returned df -> load = Some df) /\
  (path_exists "dashboard/main_data.csv" = true ->
     read_csv "dashboard/main_data.csv" = Raised -> load = None) /\
  (path_exists "dashboard/main_data.csv" = false ->
   path_exists "main_data.csv" = true ->
     read_csv "main_data.csv" = Raised -> load = None) /\
  (path_exists "dashboard/main_data.csv" = false ->
   path_exists "main_data.csv" = false -> load = None) /\
  (forall df, load = Some df ->
     (path_exists "dashboard/main_data.csv" = true /\
      read_csv "dashboard/main_data.csv" = Returned df) \/
     (path_exists "dashboard/main_data.csv" = false /\
      path_exists "main_data.csv" = true /\
      read_csv "main_data.csv" = Returned df)).
Proof.
  unfold load_data. cbv zeta.
  destruct (path_exists "dashboard/main_data.csv") eqn:E1;
    [|destruct (path_exists "main_data.csv") eqn:E2].
  - destruct (read_csv "dashboard/main_data.csv") as [df1|] eqn:R1; simpl;
      repeat apply conj; try congruence.
    intros df [= <-]. left. split; reflexivity.
  - destruct (read_csv "main_data.csv") as [df2|] eqn:R2; simpl;
      repeat apply conj; try congruence.
    intros df [= <-]. right. repeat split; reflexivity.
  - simpl. repeat apply conj; try congruence.
Qed.

Lemma load_data_first_existing_witness :
  load_data (λ _, true)
    (λ p, if decide (p = "main_data.csv") then Raised else Returned p)
    = Some "dashboard/main_data.csv" /\
  load_data (λ p, bool_decide (p = "main_data.csv"))
    (λ p, Returned p) = Some "main_data.csv" /\
  load_data (λ _, true) (λ _, @Raised nat) = None /\
  load_data (λ _, false) (λ p, Returned p) = None.
Proof.
  split; [|split; [|split]].
  - apply (proj1 (load_data_first_existing (λ _, true)
       (λ p, if decide (p = "main_data.csv") then Raised else Returned p)));
      reflexivity.
  - apply (proj1 (proj2 (load_data_first_existing
       (λ p, bool_decide (p = "main_data.csv")) (λ p, Returned p))));
      reflexivity.
  - apply (proj1 (proj2 (proj2 (load_data_first_existing
       (λ _, true) (λ _, @Raised nat))))); reflexivity.
  - apply (proj1 (proj2 (proj2 (proj2 (proj2 (load_data_first_existing
       (λ _, false) (λ p, Returned p))))))); reflexivity.
Defined.

(** ** Category column *)

(** C8: with a category column in the file the frame goes through as it
    is, whatever its labels are; without one, every row gets the label the
    classifier gives to its PM2.5 cell and nothing else changes. *)
Theorem preprocess_category_column :
  (forall rows, preprocess (WithCategory rows) = rows) /\
  (forall rows,
     Forall2 (λ r r', same_measurements r r' /\
                      Air_Quality_Category r' = categorize_pm25 (PM2_5 r))
       rows (preprocess (WithoutCategory rows))).
Proof.
  split; [reflexivity|].
  intros rows. simpl. induction rows as [|r rows IH]; constructor; [|exact IH].
  unfold same_measurements. simpl. repeat split.
Qed.

(** A label that the classifier would not give survives the preprocessing. *)
Example preprocess_keeps_foreign_label :
  let r := mkRow 0 "Aotizhongxin" (Num 10) NaN NaN NaN "Hazardous" in
  preprocess (WithCategory [r]) = [r] /\
  Air_Quality_Category r <> categorize_pm25 (PM2_5 r).
Proof. split; [reflexivity|discriminate]. Qed.

(** ** Filter *)

Lemma elem_of_main_df all_df s e sel r :
  r ∈ main_df all_df s e sel <->
  r ∈ all_df /\ date_mask s e r /\ (sel = [] \/ station r ∈ sel).
Proof.
  unfold main_df. destruct sel as [|x sel].
  - rewrite list_elem_of_filter. intuition.
  - rewrite !list_elem_of_filter. unfold isin. intuition discriminate.
Qed.

(** What the date mask keeps on the last selected day: only the rows
    stamped 00:00. *)
Lemma date_mask_end_day s e r :
  day_of (date r) = e -> date_mask s e r -> date r = Timestamp_of_date e.
Proof.
  unfold date_mask, day_of, Timestamp_of_date, ns_per_day.
  intros <- [_ H].
  pose proof (Z.mul_div_le (date r) 86400000000000). lia.
Qed.

Lemma date_mask_midnight s e r :
  s <= e -> (date r = Timestamp_of_date s \/ date r = Timestamp_of_date e) ->
  date_mask s e r.
Proof.
  unfold date_mask, Timestamp_of_date, ns_per_day. intros Hse [-> | ->]; lia.
Qed.

(** C2: a row stamped 13:00 on the selected end day is on that day, yet the
    filter drops it; the same happens with the picker's default selection,
    which spans the days of the earliest and latest row. *)
Theorem main_df_drops_end_day_rows :
  let r := reading 15765 13 "Aotizhongxin" (Num 40) in
  let r0 := reading 15765 0 "Aotizhongxin" (Num 35) in
  day_of (date r) = 15765 /\
  main_df [r] 15765 15765 [] = [] /\
  main_df [r0; r] (day_of (date r0)) (day_of (date r)) [] = [r0].
Proof. repeat split. Qed.

Section UniqueFacts.
Context {A : Type} `{EqDecision A}.
Implicit Types (l seen : list A) (x : A).

Lemma elem_of_unique_from seen l x :
  x ∈ unique_from seen l <-> x ∈ l /\ x ∉ seen.
Proof.
  revert seen. induction l as [|y l IH]; intros seen; simpl.
  - rewrite elem_of_nil. tauto.
  - destruct (decide (y ∈ seen)) as [Hy|Hy].
    + rewrite IH, elem_of_cons. split; [tauto|].
      intros [[->|Hx] Hn]; [contradiction|tauto].
    + rewrite !elem_of_cons, IH, elem_of_cons. split.
      * intros [->|[Hx Hn]]; tauto.
      * intros [[->|Hx] Hn]; [tauto|].
        destruct (decide (x = y)); tauto.
Qed.

Lemma elem_of_unique l x : x ∈ unique l <-> x ∈ l.
Proof.
  unfold unique. rewrite elem_of_unique_from, elem_of_nil. tauto.
Qed.

Lemma NoDup_unique_from seen l : NoDup (unique_from seen l).
Proof.
  revert seen. induction l as [|y l IH]; intros seen; simpl.
  - constructor.
  - destruct (decide (y ∈ seen)); [apply IH|].
    constructor; [|apply IH].
    rewrite elem_of_unique_from, elem_of_cons. tauto.
Qed.

Lemma NoDup_unique l : NoDup (unique l).
Proof. apply NoDup_unique_from. Qed.

Lemma unique_Permutation l l' : l ≡ₚ l' -> unique l ≡ₚ unique l'.
Proof.
  intros Hp. apply NoDup_Permutation; [apply NoDup_unique..|].
  intros x. rewrite !elem_of_unique. now rewrite Hp.
Qed.

Lemma unique_nil_inv l : unique l = [] -> l = [].
Proof.
  destruct l as [|x l]; [reflexivity|]. intros H.
  assert (x ∈ unique (x :: l)) as Hx by (apply elem_of_unique; left).
  rewrite H in Hx. now apply elem_of_nil in Hx.
Qed.
End UniqueFacts.

Lemma filter_Forall_id {A} (P : A -> Prop) `{!forall x, Decision (P x)}
    (l : list A) :
  Forall P l -> filter P l = l.
Proof.
  induction 1 as [|x l Hx _ IH]; [reflexivity|].
  rewrite filter_cons_True by assumption. now rewrite IH.
Qed.

Lemma filter_idemp {A} (P : A -> Prop) `{!forall x, Decision (P x)}
    (l : list A) :
  filter P (filter P l) = filter P l.
Proof. apply list_filter_filter_l. tauto. Qed.

Lemma filter_comm {A} (P Q : A -> Prop)
    `{!forall x, Decision (P x), !forall x, Decision (Q x)} (l : list A) :
  filter P (filter Q l) = filter Q (filter P l).
Proof. rewrite !list_filter_filter. apply list_filter_iff. tauto. Qed.

(** C4: an empty station selection is no station filter: the result is the
    frame cut to the date range only, so every row of whatever station that
    passes the date mask is retained; and it is the same frame as with the
    selection of every station of the frame. *)
Theorem main_df_empty_selection_all_stations all_df start_date end_date :
  main_df all_df start_date end_date [] =
    filter (date_mask start_date end_date) all_df /\
  (forall r, r ∈ all_df -> date_mask start_date end_date r ->
             r ∈ main_df all_df start_date end_date []) /\
  main_df all_df start_date end_date [] =
    main_df all_df start_date end_date (station_list all_df).
Proof.
  split; [reflexivity|]. split.
  - intros r Hr Hmask. apply list_elem_of_filter. now split.
  - unfold main_df.
    destruct (station_list all_df) as [|x sel] eqn:Hsel; [reflexivity|].
    symmetry. apply filter_Forall_id, Forall_forall.
    intros r [_ Hr]%list_elem_of_filter.
    unfold isin. rewrite <- Hsel. apply elem_of_unique.
    now apply list_elem_of_fmap_2.
Qed.

Lemma main_df_empty_selection_all_stations_witness :
  let a := reading 15765 0 "Dongsi" (Num 40) in
  let b := reading 15765 0 "Changping" (Num 120) in
  b ∈ main_df [a; b] 15765 15765 [].
Proof.
  intros a b.
  apply (proj1 (proj2 (main_df_empty_selection_all_stations [a; b] 15765 15765))).
  - right; left.
  - split; vm_compute; discriminate.
Defined.

(** C7: filtering the filtered frame again with the same selection changes
    nothing. *)
Theorem main_df_idempotent all_df start_date end_date selected_station :
  main_df (main_df all_df start_date end_date selected_station)
    start_date end_date selected_station =
  main_df all_df start_date end_date selected_station.
Proof.
  unfold main_df. destruct selected_station as [|x sel].
  - apply filter_idemp.
  - set (sel' := x :: sel).
    rewrite (filter_comm (date_mask start_date end_date) (isin sel')).
    now rewrite (filter_idemp (date_mask start_date end_date)), filter_idemp.
Qed.

(** ** Means *)

Lemma omap_notna_cons v vs :
  omap notna (v :: vs) =
  match v with NaN => omap notna vs | Num q => q :: omap notna vs end.
Proof. now destruct v. Qed.

Lemma omap_notna_nil vs : omap notna vs = [] <-> Forall (λ v, v = NaN) vs.
Proof.
  induction vs as [|v vs IH]; [split; [constructor|reflexivity]|].
  rewrite omap_notna_cons, Forall_cons. destruct v as [|q].
  - rewrite IH. tauto.
  - split; [discriminate|]. now intros [[=] _].
Qed.

Lemma mean_NaN_iff vs : mean vs = NaN <-> Forall (λ v, v = NaN) vs.
Proof.
  rewrite <- omap_notna_nil. unfold mean.
  destruct (omap notna vs); split; (reflexivity || discriminate).
Qed.

(** Whether a mean is missing does not depend on the order of the cells. *)
Lemma isna_mean_Permutation vs vs' :
  vs ≡ₚ vs' -> isna (mean vs) = isna (mean vs').
Proof.
  intros Hp. unfold mean.
  assert (omap notna vs ≡ₚ omap notna vs') as Hq by now rewrite Hp.
  destruct (omap notna vs) as [|q qs], (omap notna vs') as [|q' qs'].
  - reflexivity.
  - now apply Permutation_nil_cons in Hq.
  - symmetry in Hq. now apply Permutation_nil_cons in Hq.
  - reflexivity.
Qed.

Lemma isna_mean_column_Permutation (col : Row string -> value)
    (P : Row string -> Prop) `{!forall r, Decision (P r)} df df' :
  df ≡ₚ df' ->
  isna (mean (col <$> filter P df)) = isna (mean (col <$> filter P df')).
Proof. intros Hp. apply isna_mean_Permutation. now rewrite Hp. Qed.

(** ** Daily trend *)

Lemma foldr_min_spec d ds :
  foldr Z.min d ds ∈ d :: ds /\ forall x, x ∈ d :: ds -> foldr Z.min d ds <= x.
Proof.
  induction ds as [|y ds [IHin IHle]]; simpl.
  - split; [left|]. intros x ->%list_elem_of_singleton. lia.
  - split.
    + destruct (Z.min_spec y (foldr Z.min d ds)) as [[_ ->]|[_ ->]].
      * right; left.
      * apply elem_of_cons in IHin as [Hd|Hin]; [rewrite Hd; left|].
        right; right; exact Hin.
    + intros x Hx.
      assert (x = y \/ x ∈ d :: ds) as [->|Hx'].
      { rewrite !elem_of_cons in Hx. rewrite elem_of_cons. tauto. }
      * lia.
      * specialize (IHle x Hx'). lia.
Qed.

Lemma foldr_max_spec d ds :
  foldr Z.max d ds ∈ d :: ds /\ forall x, x ∈ d :: ds -> x <= foldr Z.max d ds.
Proof.
  induction ds as [|y ds [IHin IHle]]; simpl.
  - split; [left|]. intros x ->%list_elem_of_singleton. lia.
  - split.
    + destruct (Z.max_spec y (foldr Z.max d ds)) as [[_ ->]|[_ ->]].
      * apply elem_of_cons in IHin as [Hd|Hin]; [rewrite Hd; left|].
        right; right; exact Hin.
      * right; left.
    + intros x Hx.
      assert (x = y \/ x ∈ d :: ds) as [->|Hx'].
      { rewrite !elem_of_cons in Hx. rewrite elem_of_cons. tauto. }
      * lia.
      * specialize (IHle x Hx'). lia.
Qed.

Lemma foldr_min_Permutation d ds d' ds' :
  d :: ds ≡ₚ d' :: ds' -> foldr Z.min d ds = foldr Z.min d' ds'.
Proof.
  intros Hp.
  destruct (foldr_min_spec d ds) as [Hin Hle].
  destruct (foldr_min_spec d' ds') as [Hin' Hle'].
  rewrite Hp in Hin. rewrite <- Hp in Hin'.
  specialize (Hle _ Hin'). specialize (Hle' _ Hin). lia.
Qed.

Lemma foldr_max_Permutation d ds d' ds' :
  d :: ds ≡ₚ d' :: ds' -> foldr Z.max d ds = foldr Z.max d' ds'.
Proof.
  intros Hp.
  destruct (foldr_max_spec d ds) as [Hin Hle].
  destruct (foldr_max_spec d' ds') as [Hin' Hle'].
  rewrite Hp in Hin. rewrite <- Hp in Hin'.
  specialize (Hle _ Hin'). specialize (Hle' _ Hin). lia.
Qed.

Lemma na_pattern_daily_df_Permutation df df' :
  df ≡ₚ df' -> na_pattern (daily_df df) = na_pattern (daily_df df').
Proof.
  intros Hp. unfold daily_df.
  assert ((day_of ∘ date) <$> df ≡ₚ (day_of ∘ date) <$> df') as Hd
    by now rewrite Hp.
  destruct ((day_of ∘ date) <$> df) as [|d ds],
           ((day_of ∘ date) <$> df') as [|d' ds'].
  - reflexivity.
  - now apply Permutation_nil_cons in Hd.
  - symmetry in Hd. now apply Permutation_nil_cons in Hd.
  - cbv zeta. unfold na_pattern.
    rewrite (foldr_min_Permutation _ _ _ _ Hd), (foldr_max_Permutation _ _ _ _ Hd).
    rewrite <- !list_fmap_compose.
    apply list_fmap_ext. intros _ k _. simpl. f_equal.
    now apply isna_mean_column_Permutation.
Qed.

Lemma Timestamp_of_date_inj k k' :
  Timestamp_of_date k = Timestamp_of_date k' -> k = k'.
Proof. unfold Timestamp_of_date, ns_per_day. lia. Qed.

Lemma elem_of_daily_df df t v :
  (t, v) ∈ daily_df df <->
  exists k, t = Timestamp_of_date k /\ in_day_span df k /\
            v = mean (PM2_5 <$> filter (on_day k) df).
Proof.
  unfold daily_df, in_day_span.
  destruct ((day_of ∘ date) <$> df) as [|d ds] eqn:Hdays.
  - apply fmap_nil_inv in Hdays as ->. split.
    + intros H. now apply elem_of_nil in H.
    + intros (k & _ & (r1 & _ & H & _) & _). now apply elem_of_nil in H.
  - cbv zeta.
    destruct (foldr_min_spec d ds) as [Hmin_in Hmin_le].
    destruct (foldr_max_spec d ds) as [Hmax_in Hmax_le].
    rewrite <- Hdays in Hmin_in, Hmax_in, Hmin_le, Hmax_le.
    rewrite list_elem_of_fmap. setoid_rewrite elem_of_seqZ. split.
    + intros (k & [= -> ->] & Hk). exists k. split; [reflexivity|].
      split; [|reflexivity].
      apply list_elem_of_fmap in Hmin_in as (r1 & E1 & Hr1).
      apply list_elem_of_fmap in Hmax_in as (r2 & E2 & Hr2).
      exists r1, r2. simpl in E1, E2. repeat split; try assumption; lia.
    + intros (k & -> & (r1 & r2 & Hr1 & Hr2 & Hlo & Hhi) & ->).
      exists k. split; [reflexivity|].
      assert (foldr Z.min d ds <= day_of (date r1)) as Hfirst.
      { apply Hmin_le. now apply (list_elem_of_fmap_2 (day_of ∘ date)). }
      assert (day_of (date r2) <= foldr Z.max d ds) as Hlast.
      { apply Hmax_le. now apply (list_elem_of_fmap_2 (day_of ∘ date)). }
      lia.
Qed.

Lemma Sorted_seqZ m n : Sorted Z.lt (seqZ m n).
Proof.
  destruct (decide (n <= 0)) as [Hn|Hn]; [rewrite seqZ_nil by lia; constructor|].
  rewrite <- (Z2Nat.id n) by lia. generalize (Z.to_nat n) as len. clear n Hn.
  intros len. revert m. induction len as [|len IH]; intros m.
  - rewrite seqZ_nil by lia. constructor.
  - rewrite seqZ_cons by lia.
    replace (Z.pred (Z.of_nat (S len))) with (Z.of_nat len) by lia.
    constructor; [apply IH|].
    destruct len as [|len]; [rewrite seqZ_nil by lia; constructor|].
    rewrite seqZ_cons by lia. constructor. lia.
Qed.

Lemma daily_df_ascending df : Sorted Z.lt (fst <$> daily_df df).
Proof.
  unfold daily_df. destruct ((day_of ∘ date) <$> df) as [|d ds]; [constructor|].
  cbv zeta. rewrite <- list_fmap_compose.
  apply (Sorted_fmap _ Z.lt Z.lt); [|apply Sorted_seqZ].
  intros x y Hxy. simpl. unfold Timestamp_of_date, ns_per_day. lia.
Qed.

(** C3 (as the code has it): the daily trend has an entry for exactly the
    calendar days from the day of the earliest row to the day of the latest
    row, in ascending order; the entry of a day is the mean PM2.5 of the
    rows of that day, so a day of the span without rows is present with NaN
    (not zero) and a day outside the span is absent; there is no entry
    other than those, each stamped 00:00 of its day. *)
Theorem daily_df_day_span df k :
  Sorted Z.lt (fst <$> daily_df df) /\
  ((exists v, (Timestamp_of_date k, v) ∈ daily_df df) <-> in_day_span df k) /\
  (forall v, (Timestamp_of_date k, v) ∈ daily_df df ->
             v = mean (PM2_5 <$> filter (on_day k) df)) /\
  (in_day_span df k -> filter (on_day k) df = [] ->
   (Timestamp_of_date k, NaN) ∈ daily_df df /\
   forall v, (Timestamp_of_date k, v) ∈ daily_df df -> v = NaN) /\
  (forall t v, (t, v) ∈ daily_df df ->
     exists k', t = Timestamp_of_date k' /\ in_day_span df k').
Proof.
  assert (forall v, (Timestamp_of_date k, v) ∈ daily_df df ->
            in_day_span df k /\ v = mean (PM2_5 <$> filter (on_day k) df)) as Hfwd.
  { intros v (k' & Hk & Hspan & ->)%elem_of_daily_df.
    apply Timestamp_of_date_inj in Hk as <-. split; [assumption|reflexivity]. }
  split; [apply daily_df_ascending|]. split; [split|split; [|split]].
  - intros [v Hv]. now apply Hfwd in Hv.
  - intros Hspan. eexists. apply elem_of_daily_df. eauto.
  - intros v Hv. now apply Hfwd in Hv.
  - intros Hspan Hnone. split.
    + apply elem_of_daily_df. exists k. rewrite Hnone. repeat split. assumption.
    + intros v Hv. apply Hfwd in Hv as [_ ->]. now rewrite Hnone.
  - intros t v (k' & Ht & Hspan & _)%elem_of_daily_df. now exists k'.
Qed.

Lemma daily_df_day_span_witness :
  let df := [reading 15765 9 "Dongsi" (Num 40);
             reading 15767 0 "Dongsi" (Num 60)] in
  (Timestamp_of_date 15766, NaN) ∈ daily_df df /\
  forall v, (Timestamp_of_date 15766, v) ∈ daily_df df -> v = NaN.
Proof.
  intros df.
  apply (proj1 (proj2 (proj2 (proj2 (daily_df_day_span df 15766))))).
  - exists (reading 15765 9 "Dongsi" (Num 40)),
           (reading 15767 0 "Dongsi" (Num 60)).
    split; [left|]. split; [right; left|]. split; vm_compute; discriminate.
  - reflexivity.
Defined.

(** C3 (as claimed) fails: with rows on 2013-03-01 and 2013-03-03 only, the
    output has a NaN entry for 2013-03-02 although no row falls on it. *)
Lemma daily_df_fills_gap_day :
  let df := [reading 15765 9 "Dongsi" (Num 40);
             reading 15767 0 "Dongsi" (Num 60)] in
  filter (on_day 15766) df = [] /\
  daily_df df = [(Timestamp_of_date 15765, Num 40);
                 (Timestamp_of_date 15766, NaN);
                 (Timestamp_of_date 15767, Num 60)] /\
  ~ (forall k v, (Timestamp_of_date k, v) ∈ daily_df df ->
                 exists r, r ∈ df /\ on_day k r).
Proof.
  intros df.
  assert (daily_df df = [(Timestamp_of_date 15765, Num 40);
                         (Timestamp_of_date 15766, NaN);
                         (Timestamp_of_date 15767, Num 60)]) as Hd
    by (vm_compute; reflexivity).
  split; [reflexivity|]. split; [exact Hd|].
  intros H. destruct (H 15766 NaN) as (r & Hr & Hday).
  - rewrite Hd. right; left.
  - assert (r ∈ filter (on_day 15766) df) as Hf
      by (apply list_elem_of_filter; split; assumption).
    now apply elem_of_nil in Hf.
Qed.

(** ** Station comparison *)

Lemma sorted_keys_Permutation (l l' : list string) :
  l ≡ₚ l' -> merge_sort String.le (unique l) = merge_sort String.le (unique l').
Proof.
  intros Hp. apply (Sorted_unique String.le).
  - apply Sorted_merge_sort, _.
  - apply Sorted_merge_sort, _.
  - rewrite !merge_sort_Permutation. now apply unique_Permutation.
Qed.

Lemma na_pattern_melt_Permutation df df' :
  df ≡ₚ df' ->
  na_pattern (melt (station_avg df)) = na_pattern (melt (station_avg df')).
Proof.
  intros Hp. unfold melt, station_avg, na_pattern.
  rewrite (sorted_keys_Permutation (station <$> df) (station <$> df'))
    by now rewrite Hp.
  rewrite !fmap_app, <- !list_fmap_compose.
  repeat (f_equal; [apply list_fmap_ext; intros _ k _; simpl; f_equal;
                    now apply isna_mean_column_Permutation|]).
  apply list_fmap_ext; intros _ k _; simpl; f_equal.
  now apply isna_mean_column_Permutation.
Qed.

Lemma station_avg_nil : station_avg [] = [].
Proof. reflexivity. Qed.

(** ** Category distribution *)

Section ValueCountsFacts.
Context {A : Type} `{EqDecision A}.
Implicit Types (l : list A) (x : A).

Lemma insert_desc_Permutation (p : A * nat) cs : insert_desc p cs ≡ₚ p :: cs.
Proof.
  induction cs as [|q cs IH]; simpl; [reflexivity|].
  destruct (decide (p.2 < q.2)%nat); [|reflexivity].
  rewrite IH. apply Permutation_swap.
Qed.

Lemma sort_desc_Permutation (cs : list (A * nat)) :
  foldr insert_desc [] cs ≡ₚ cs.
Proof.
  induction cs as [|p cs IH]; simpl; [reflexivity|].
  now rewrite insert_desc_Permutation, IH.
Qed.

Lemma occurrences_Permutation x l l' :
  l ≡ₚ l' -> occurrences x l = occurrences x l'.
Proof. intros Hp. unfold occurrences. now rewrite Hp. Qed.

Lemma occurrences_pos x l : x ∈ l <-> (0 < occurrences x l)%nat.
Proof.
  unfold occurrences. split.
  - intros Hx.
    assert (x ∈ filter (λ y, y = x) l) as Hf
      by (apply list_elem_of_filter; split; [reflexivity|assumption]).
    destruct (filter (λ y, y = x) l); [now apply elem_of_nil in Hf|].
    simpl. lia.
  - intros Hpos. destruct (filter (λ y, y = x) l) as [|y k] eqn:Hf.
    + simpl in Hpos. lia.
    + assert (y ∈ filter (λ y, y = x) l) as Hy by (rewrite Hf; left).
      apply list_elem_of_filter in Hy as [-> Hy]. exact Hy.
Qed.

Lemma elem_of_value_counts l x n :
  (x, n) ∈ value_counts l <-> x ∈ l /\ n = occurrences x l.
Proof.
  unfold value_counts. rewrite sort_desc_Permutation, list_elem_of_fmap.
  setoid_rewrite elem_of_unique. split.
  - intros (y & [= -> ->] & Hy). split; [assumption|reflexivity].
  - intros [Hx ->]. exists x. split; [reflexivity|assumption].
Qed.

Lemma value_counts_Permutation l l' :
  l ≡ₚ l' -> value_counts l ≡ₚ value_counts l'.
Proof.
  intros Hp. unfold value_counts. rewrite !sort_desc_Permutation.
  rewrite (unique_Permutation l l' Hp).
  rewrite (list_fmap_ext (λ x, (x, occurrences x l))
             (λ x, (x, occurrences x l')) (unique l')); [reflexivity|].
  intros _ x _. simpl. f_equal. now apply occurrences_Permutation.
Qed.

Lemma insert_desc_Sorted (p : A * nat) cs :
  Sorted (λ a b, b.2 <= a.2)%nat cs ->
  Sorted (λ a b, b.2 <= a.2)%nat (insert_desc p cs).
Proof.
  induction 1 as [|q cs Hs IH Hhd]; simpl.
  - repeat constructor.
  - destruct (decide (p.2 < q.2)%nat) as [Hlt|Hge].
    + constructor; [exact IH|].
      destruct cs as [|q' cs]; simpl.
      * constructor; lia.
      * destruct (decide (p.2 < q'.2)%nat); constructor; [|lia].
        now inversion Hhd.
    + constructor; [now constructor|]. constructor. lia.
Qed.

(** Most frequent first. *)
Lemma value_counts_Sorted l :
  Sorted (λ a b, b.2 <= a.2)%nat (value_counts l).
Proof.
  unfold value_counts.
  induction ((λ x, (x, occurrences x l)) <$> unique l) as [|p cs IH]; simpl.
  - constructor.
  - now apply insert_desc_Sorted.
Qed.
End ValueCountsFacts.

(** ** The views of one selection *)

(** C6: when the selection matches no row, every aggregation still has a
    value: the daily trend and the category distribution are empty, the
    station comparison has no row (it is the empty table for a non-empty
    station selection and is not drawn for an empty one), and both overall
    means are NaN, which is not zero. *)
Theorem aggregate_no_rows all_df start_date end_date selected_station :
  main_df all_df start_date end_date selected_station = [] ->
  let v := aggregate selected_station
             (main_df all_df start_date end_date selected_station) in
  v_daily_df v = [] /\
  v_station_melt v =
    match selected_station with [] => None | _ :: _ => Some [] end /\
  v_category_counts v = [] /\
  v_avg_pm25 v = NaN /\ v_avg_pm10 v = NaN /\
  v_avg_pm25 v <> Num 0 /\ v_avg_pm10 v <> Num 0.
Proof.
  intros ->. cbv zeta. unfold aggregate. simpl.
  split; [reflexivity|]. split; [now destruct selected_station|].
  repeat split; discriminate.
Qed.

Lemma aggregate_no_rows_witness :
  let all_df := [reading 15765 9 "Dongsi" (Num 40)] in
  let v := aggregate ["Dongsi"] (main_df all_df 15770 15771 ["Dongsi"]) in
  v_daily_df v = [] /\
  v_station_melt v = Some [] /\
  v_category_counts v = [] /\
  v_avg_pm25 v = NaN /\ v_avg_pm10 v = NaN /\
  v_avg_pm25 v <> Num 0 /\ v_avg_pm10 v <> Num 0.
Proof.
  apply (aggregate_no_rows [reading 15765 9 "Dongsi" (Num 40)]
           15770 15771 ["Dongsi"]).
  reflexivity.
Defined.

Lemma main_df_Permutation all_df all_df' s e sel :
  all_df ≡ₚ all_df' -> main_df all_df s e sel ≡ₚ main_df all_df' s e sel.
Proof.
  intros Hp. unfold main_df. destruct sel; now rewrite Hp.
Qed.

(** C9 (as the code has it): reordering the rows of the filtered frame
    leaves the shape of every view unchanged: the same days in the daily
    trend and the same (station, pollutant) rows in the station comparison,
    in the same order and with NaN at the same places; the two overall
    means missing for the same frames; the category distribution with the
    same count for each category, most frequent first.  (The float values
    of the means and the order among categories of equal count are not
    kept.) *)
Theorem aggregate_Permutation selected_station df df' :
  df ≡ₚ df' ->
  let v := aggregate selected_station df in
  let v' := aggregate selected_station df' in
  isna (v_avg_pm25 v) = isna (v_avg_pm25 v') /\
  isna (v_avg_pm10 v) = isna (v_avg_pm10 v') /\
  na_pattern (v_daily_df v) = na_pattern (v_daily_df v') /\
  na_pattern <$> v_station_melt v = na_pattern <$> v_station_melt v' /\
  v_category_counts v ≡ₚ v_category_counts v' /\
  (forall c n, (c, n) ∈ v_category_counts v <-> (c, n) ∈ v_category_counts v') /\
  Sorted (λ a b, b.2 <= a.2)%nat (v_category_counts v) /\
  Sorted (λ a b, b.2 <= a.2)%nat (v_category_counts v').
Proof.
  intros Hp. cbv zeta. unfold aggregate. simpl.
  assert (category_counts df ≡ₚ category_counts df') as Hc.
  { unfold category_counts. apply value_counts_Permutation. now rewrite Hp. }
  split; [|split; [|split; [|split; [|split; [|split; [|split]]]]]].
  - unfold avg_pm25. apply isna_mean_Permutation. now rewrite Hp.
  - unfold avg_pm10. apply isna_mean_Permutation. now rewrite Hp.
  - now apply na_pattern_daily_df_Permutation.
  - unfold station_melt. destruct selected_station; [reflexivity|].
    simpl. f_equal. now apply na_pattern_melt_Permutation.
  - exact Hc.
  - intros c n. now rewrite Hc.
  - apply value_counts_Sorted.
  - apply value_counts_Sorted.
Qed.

Lemma aggregate_Permutation_witness :
  let a := reading 15765 0 "Dongsi" (Num 40) in
  let b := reading 15766 5 "Changping" (Num 80) in
  let v := aggregate ["Dongsi"] [a; b] in
  let v' := aggregate ["Dongsi"] [b; a] in
  isna (v_avg_pm25 v) = isna (v_avg_pm25 v') /\
  isna (v_avg_pm10 v) = isna (v_avg_pm10 v') /\
  na_pattern (v_daily_df v) = na_pattern (v_daily_df v') /\
  na_pattern <$> v_station_melt v = na_pattern <$> v_station_melt v' /\
  v_category_counts v ≡ₚ v_category_counts v' /\
  (forall c n, (c, n) ∈ v_category_counts v <-> (c, n) ∈ v_category_counts v') /\
  Sorted (λ a b, b.2 <= a.2)%nat (v_category_counts v) /\
  Sorted (λ a b, b.2 <= a.2)%nat (v_category_counts v').
Proof.
  intros a b. apply (aggregate_Permutation ["Dongsi"] [a; b] [b; a]).
  apply Permutation_swap.
Defined.

(** The sample cells are the numbers that the fields 119.8, 150.1 and 87.7
    of a CSV file are read as. *)
Example sample_cells_as_read :
  f64_of_Q pm_119_8 = f64_of_Q (1198 # 10) /\
  f64_of_Q pm_150_1 = f64_of_Q (1501 # 10) /\
  f64_of_Q pm_87_7 = f64_of_Q (877 # 10) /\
  f64_of_Q pm_119_8 = S754_finite false 8430175552484147 (-46).
Proof. repeat split; vm_compute; reflexivity. Qed.

(** C9 (as claimed) fails, in two ways.  Two rows of different categories,
    each occurring once, give the distribution in the order of the rows.
    Three rows with PM2.5 119.8, 150.1 and 87.7 give the overall mean
    119.19999999999999 in that order and 119.2 in the reverse order. *)
Lemma aggregate_depends_on_row_order :
  let a := reading 15765 0 "Dongsi" (Num 40) in
  let b := reading 15765 0 "Dongsi" (Num 80) in
  let x := reading 15765 0 "Dongsi" (Num pm_119_8) in
  let y := reading 15765 1 "Dongsi" (Num pm_150_1) in
  let z := reading 15765 2 "Dongsi" (Num pm_87_7) in
  ([a; b] ≡ₚ [b; a] /\
   category_counts [a; b] = [("Good", 1%nat); ("Moderate", 1%nat)] /\
   category_counts [b; a] = [("Moderate", 1%nat); ("Good", 1%nat)] /\
   aggregate [] [a; b] <> aggregate [] [b; a]) /\
  ([x; y; z] ≡ₚ [z; y; x] /\
   avg_pm25_f64 [x; y; z] = Some (S754_finite false 8387954305977548 (-46)) /\
   avg_pm25_f64 [z; y; x] = Some (S754_finite false 8387954305977549 (-46)) /\
   avg_pm25_f64 [x; y; z] <> avg_pm25_f64 [z; y; x]).
Proof.
  intros a b x y z. split.
  - split; [apply Permutation_swap|].
    split; [reflexivity|]. split; [reflexivity|].
    intros H. apply (f_equal v_category_counts) in H. vm_compute in H.
    discriminate.
  - split.
    { symmetry. exact (reverse_Permutation [x; y; z]). }
    split; [vm_compute; reflexivity|]. split; [vm_compute; reflexivity|].
    vm_compute. discriminate.
Qed.

(** ** Worked selections

    Two stations on 2013-03-01, PM2.5 40 and 120. *)

Example two_stations_no_station_filter :
  let all_df := [reading 15765 0 "A" (Num 40); reading 15765 0 "B" (Num 120)] in
  let v := aggregate [] (main_df all_df 15765 15765 []) in
  v_daily_df v = [(Timestamp_of_date 15765, Num 80)] /\
  v_category_counts v =
    [("Good", 1%nat); ("Unhealthy for Sensitive Groups", 1%nat)] /\
  v_avg_pm25 v = Num 80.
Proof. repeat split. Qed.

Example two_stations_select_one :
  let all_df := [reading 15765 0 "A" (Num 40); reading 15765 0 "B" (Num 120)] in
  let df := main_df all_df 15765 15765 ["A"] in
  length df = 1%nat /\
  sr_station <$> station_avg df = ["A"] /\
  station_melt ["A"] df =
    Some [("A", "PM2.5", Num 40); ("A", "PM10", NaN);
          ("A", "SO2", NaN); ("A", "NO2", NaN)].
Proof. repeat split. Qed.


(** * Further properties of the pipeline *)

(** ** Classifier *)

Lemma categorize_pm25_cases q :
  ((q <= 50)%Q /\ categorize_pm25 (Num q) = "Good") \/
  ((50 < q)%Q /\ (q <= 100)%Q /\ categorize_pm25 (Num q) = "Moderate") \/
  ((100 < q)%Q /\ (q <= 150)%Q /\
     categorize_pm25 (Num q) = "Unhealthy for Sensitive Groups") \/
  ((150 < q)%Q /\ categorize_pm25 (Num q) = "Unhealthy").
Proof.
  unfold categorize_pm25.
  destruct (value_le (Num q) 50) eqn:H50.
  { left. split; [now apply (value_le_Num q 50)|reflexivity]. }
  apply (value_le_Num_false q 50) in H50.
  destruct (value_le (Num q) 100) eqn:H100.
  { right; left. apply (value_le_Num q 100) in H100. now repeat split. }
  apply (value_le_Num_false q 100) in H100.
  destruct (value_le (Num q) 150) eqn:H150.
  { right; right; left. apply (value_le_Num q 150) in H150. now repeat split. }
  apply (value_le_Num_false q 150) in H150.
  right; right; right. now split.
Qed.

(** X1: the bands are exact: a label is given only to the values of its
    band, a missing value is labelled Unhealthy and nothing else, and no
    label outside the four is ever produced. *)
Theorem categorize_pm25_exact (pm : value) :
  (categorize_pm25 pm = "Good" <-> exists q, pm = Num q /\ (q <= 50)%Q) /\
  (categorize_pm25 pm = "Moderate" <->
     exists q, pm = Num q /\ (50 < q)%Q /\ (q <= 100)%Q) /\
  (categorize_pm25 pm = "Unhealthy for Sensitive Groups" <->
     exists q, pm = Num q /\ (100 < q)%Q /\ (q <= 150)%Q) /\
  (categorize_pm25 pm = "Unhealthy" <->
     pm = NaN \/ exists q, pm = Num q /\ (150 < q)%Q) /\
  categorize_pm25 pm ∈ categories.
Proof.
  destruct pm as [|q].
  - simpl. repeat split; try discriminate.
    + intros (q & [=] & _).
    + intros (q & [=] & _).
    + intros (q & [=] & _).
    + now left.
    + unfold categories. do 3 right. left.
  - destruct (categorize_pm25_cases q)
      as [[B ->]|[(B1 & B2 & ->)|[(B1 & B2 & ->)|[B ->]]]];
      (repeat split;
       [ try discriminate; try (intros (q' & [= <-] & ?); exfalso; lra);
         try (intros _; exists q; repeat split; assumption);
         try (intros [[=]|(q' & [= <-] & ?)]; exfalso; lra);
         try (intros _; right; exists q; split; [reflexivity|assumption]) ..
       | unfold categories; repeat (first [now left | right]) ]).
Qed.

(** ** Sidebar *)

Lemma unique_from_filter {A} `{EqDecision A} (seen l : list A) :
  unique_from seen l = filter (λ y, y ∉ seen) (unique l).
Proof.
  revert seen. induction l as [|x l IH]; intros seen; [reflexivity|].
  unfold unique. simpl.
  destruct (decide (x ∈ [])) as [Hnil|_]; [now apply elem_of_nil in Hnil|].
  rewrite (IH [x]), (IH seen), (IH (x :: seen)).
  destruct (decide (x ∈ seen)) as [Hx|Hx].
  - rewrite filter_cons_False by tauto.
    rewrite list_filter_filter. apply list_filter_iff. intros y.
    rewrite list_elem_of_singleton. split; [|tauto].
    intros Hy. split; [assumption|]. intros ->. contradiction.
  - rewrite filter_cons_True by assumption. f_equal.
    rewrite list_filter_filter. apply list_filter_iff. intros y.
    rewrite elem_of_cons, list_elem_of_singleton. tauto.
Qed.

(** X2: the station options of the sidebar list every station of the frame
    exactly once, in the order in which the stations first appear. *)
Theorem station_list_first_appearance all_df :
  NoDup (station_list all_df) /\
  (forall s, s ∈ station_list all_df <-> exists r, r ∈ all_df /\ station r = s) /\
  (forall r rest, all_df = r :: rest ->
     station_list all_df =
     station r :: filter (λ s, s <> station r) (station_list rest)).
Proof.
  unfold station_list. split; [apply NoDup_unique|]. split.
  - intros s. rewrite elem_of_unique, list_elem_of_fmap. split.
    + intros (r & -> & Hr). now exists r.
    + intros (r & Hr & <-). now exists r.
  - intros r rest ->. unfold unique at 1. simpl.
    destruct (decide (station r ∈ [])) as [Hnil|_];
      [now apply elem_of_nil in Hnil|].
    f_equal. rewrite unique_from_filter. apply list_filter_iff.
    intros s. rewrite list_elem_of_singleton. tauto.
Qed.

(** X3: the default station selection cannot be built for a frame without
    rows (the index raises); for any other frame it is the station of the
    first row. *)
Theorem default_station_first_row all_df :
  (default_station all_df = Raised <-> all_df = []) /\
  (forall r rest, all_df = r :: rest ->
     default_station all_df = Returned [station r]).
Proof.
  assert (forall r rest, default_station (r :: rest) = Returned [station r]) as Hcons.
  { intros r rest. unfold default_station, station_list, unique. simpl.
    destruct (decide (station r ∈ [])) as [Hnil|_];
      [now apply elem_of_nil in Hnil|reflexivity]. }
  split.
  - destruct all_df as [|r rest]; [now split|].
    rewrite Hcons. split; discriminate.
  - intros r rest ->. apply Hcons.
Qed.

Lemma default_station_first_row_witness :
  default_station [reading 15765 0 "Dongsi" (Num 40);
                   reading 15765 0 "Changping" (Num 80)]
  = Returned ["Dongsi"].
Proof.
  apply (proj2 (default_station_first_row
                  [reading 15765 0 "Dongsi" (Num 40);
                   reading 15765 0 "Changping" (Num 80)])
           (reading 15765 0 "Dongsi" (Num 40))
           [reading 15765 0 "Changping" (Num 80)]).
  reflexivity.
Defined.

(** ** Filter *)

Lemma main_df_as_filter all_df s e sel :
  main_df all_df s e sel =
  filter (λ r, date_mask s e r /\ (sel = [] \/ station r ∈ sel)) all_df.
Proof.
  unfold main_df. destruct sel as [|x sel].
  - apply list_filter_iff. intros r. tauto.
  - rewrite list_filter_filter. apply list_filter_iff. intros r.
    unfold isin. intuition discriminate.
Qed.

Lemma filter_sublist_impl {A} (P Q : A -> Prop)
    `{!forall x, Decision (P x), !forall x, Decision (Q x)} (l : list A) :
  (forall x, P x -> Q x) -> filter P l `sublist_of` filter Q l.
Proof.
  intros HPQ. induction l as [|x l IH]; [constructor|].
  rewrite !filter_cons.
  destruct (decide (P x)) as [HP|HP].
  - rewrite decide_True by auto. now constructor.
  - destruct (decide (Q x)); [now constructor|assumption].
Qed.

Lemma filter_sublist_self {A} (P : A -> Prop) `{!forall x, Decision (P x)}
    (l : list A) :
  filter P l `sublist_of` l.
Proof.
  induction l as [|x l IH]; [constructor|].
  rewrite filter_cons. destruct (decide (P x)); now constructor.
Qed.

(** X4: the filter only drops rows: what it returns is the loaded frame with
    some rows left out, the others unchanged and in their original order. *)
Theorem main_df_sublist all_df start_date end_date selected_station :
  main_df all_df start_date end_date selected_station `sublist_of` all_df.
Proof. rewrite main_df_as_filter. apply filter_sublist_self. Qed.

(** X5: a wider date range, or more selected stations, never loses a row. *)
Theorem main_df_monotone all_df s e sel s' e' sel' :
  s' <= s -> e <= e' ->
  sel' = [] \/ (sel <> [] /\ forall x, x ∈ sel -> x ∈ sel') ->
  main_df all_df s e sel `sublist_of` main_df all_df s' e' sel'.
Proof.
  intros Hs He Hsel. rewrite !main_df_as_filter.
  apply filter_sublist_impl. intros r [[Hlo Hhi] Hst].
  unfold date_mask, Timestamp_of_date, ns_per_day in *.
  split; [lia|]. destruct Hsel as [->|[Hne Hsub]]; [now left|].
  right. destruct Hst as [->|Hin]; [contradiction|auto].
Qed.

Lemma main_df_monotone_witness :
  main_df [reading 15765 0 "Dongsi" (Num 40)] 15765 15765 ["Dongsi"]
    `sublist_of`
  main_df [reading 15765 0 "Dongsi" (Num 40)] 15764 15766 ["Dongsi"; "Changping"].
Proof.
  apply main_df_monotone; [lia|lia|].
  right. split; [discriminate|].
  intros x Hx. apply list_elem_of_singleton in Hx as ->. left.
Defined.

Lemma nil_no_elem {A} (l : list A) : (forall x, x ∉ l) -> l = [].
Proof.
  destruct l as [|x l]; [reflexivity|]. intros H. exfalso. apply (H x). left.
Qed.

(** X6: with a non-empty station selection every retained row belongs to a
    selected station, and selecting only stations that the frame does not
    have leaves no row. *)
Theorem main_df_selected_stations all_df start_date end_date selected_station :
  selected_station <> [] ->
  (forall r, r ∈ main_df all_df start_date end_date selected_station ->
             station r ∈ selected_station) /\
  ((forall x, x ∈ selected_station -> x ∉ station_list all_df) ->
   main_df all_df start_date end_date selected_station = []).
Proof.
  intros Hne. split.
  - intros r (_ & _ & [Hnil|Hin])%elem_of_main_df; [contradiction|assumption].
  - intros Hnone. apply nil_no_elem.
    intros r (Hr & _ & [Hnil|Hin])%elem_of_main_df; [contradiction|].
    apply (Hnone _ Hin). unfold station_list. apply elem_of_unique.
    now apply list_elem_of_fmap_2.
Qed.

Lemma main_df_selected_stations_witness :
  main_df [reading 15765 0 "Dongsi" (Num 40)] 15765 15765 ["Changping"] = [].
Proof.
  apply (proj2 (main_df_selected_stations
                  [reading 15765 0 "Dongsi" (Num 40)] 15765 15765 ["Changping"]
                  ltac:(discriminate))).
  intros x Hx. apply list_elem_of_singleton in Hx as ->.
  vm_compute. intros H. apply list_elem_of_singleton in H. discriminate.
Defined.

Lemma day_of_le t t' : t <= t' -> day_of t <= day_of t'.
Proof. unfold day_of, ns_per_day. intros H. now apply Z.div_le_mono. Qed.

Lemma Timestamp_of_date_day_of_le t : Timestamp_of_date (day_of t) <= t.
Proof.
  unfold Timestamp_of_date, day_of, ns_per_day.
  pose proof (Z.mul_div_le t 86400000000000). lia.
Qed.

Lemma Timestamp_of_date_le k k' :
  k <= k' <-> Timestamp_of_date k <= Timestamp_of_date k'.
Proof. unfold Timestamp_of_date, ns_per_day. lia. Qed.

Lemma day_of_Timestamp_of_date k : day_of (Timestamp_of_date k) = k.
Proof.
  unfold day_of, Timestamp_of_date, ns_per_day. now apply Z.div_mul.
Qed.

Lemma date_mask_days s e r :
  date_mask s e r -> s <= day_of (date r) /\ day_of (date r) <= e.
Proof.
  intros [Hlo Hhi]. split.
  - rewrite <- (day_of_Timestamp_of_date s). now apply day_of_le.
  - rewrite <- (day_of_Timestamp_of_date e). now apply day_of_le.
Qed.

(** X7: on a frame whose timestamps are all at 00:00 the date filter works
    by whole days: a row is retained exactly when its day lies between the
    start day and the end day, both included (and its station passes). *)
Theorem main_df_whole_days all_df start_date end_date selected_station :
  Forall at_midnight all_df ->
  forall r,
    r ∈ main_df all_df start_date end_date selected_station <->
    r ∈ all_df /\
    start_date <= day_of (date r) /\ day_of (date r) <= end_date /\
    (selected_station = [] \/ station r ∈ selected_station).
Proof.
  intros Hmid r. rewrite elem_of_main_df. split.
  - intros (Hr & Hmask & Hst). apply date_mask_days in Hmask. tauto.
  - intros (Hr & Hlo & Hhi & Hst). split; [assumption|]. split; [|assumption].
    rewrite Forall_forall in Hmid. specialize (Hmid r Hr).
    unfold date_mask. rewrite Hmid, <- !Timestamp_of_date_le. lia.
Qed.

Lemma main_df_whole_days_witness :
  let r := reading 15766 0 "Dongsi" (Num 40) in
  r ∈ main_df [r] 15765 15766 [] <->
  r ∈ [r] /\ 15765 <= day_of (date r) /\ day_of (date r) <= 15766 /\
  (@nil string = [] \/ station r ∈ @nil string).
Proof.
  intros r. apply (main_df_whole_days [r] 15765 15766 []).
  constructor; [reflexivity|constructor].
Defined.

Lemma min_date_le all_df lo r : min_date all_df = Some lo -> r ∈ all_df -> lo <= date r.
Proof.
  unfold min_date. destruct (date <$> all_df) as [|t ts] eqn:Hd; [discriminate|].
  intros [= <-] Hr. apply foldr_min_spec. rewrite <- Hd.
  now apply list_elem_of_fmap_2.
Qed.

Lemma max_date_ge all_df hi r : max_date all_df = Some hi -> r ∈ all_df -> date r <= hi.
Proof.
  unfold max_date. destruct (date <$> all_df) as [|t ts] eqn:Hd; [discriminate|].
  intros [= <-] Hr. apply foldr_max_spec. rewrite <- Hd.
  now apply list_elem_of_fmap_2.
Qed.

Lemma default_dates_start all_df s e r :
  default_dates all_df = Some (s, e) -> r ∈ all_df ->
  Timestamp_of_date s <= date r.
Proof.
  unfold default_dates.
  destruct (min_date all_df) as [lo|] eqn:Hlo; [|discriminate].
  destruct (max_date all_df) as [hi|]; [|discriminate].
  intros [= <- <-] Hr. pose proof (min_date_le _ _ _ Hlo Hr).
  pose proof (Timestamp_of_date_day_of_le lo). lia.
Qed.

Lemma default_dates_mask all_df s e :
  default_dates all_df = Some (s, e) -> Forall at_midnight all_df ->
  Forall (date_mask s e) all_df.
Proof.
  intros Hdef Hmid. apply Forall_forall. intros r Hr.
  split; [now apply (default_dates_start all_df s e)|].
  rewrite Forall_forall in Hmid. rewrite (Hmid r Hr).
  revert Hdef. unfold default_dates.
  destruct (min_date all_df) as [lo|]; [|discriminate].
  destruct (max_date all_df) as [hi|] eqn:Hhi; [|discriminate].
  intros [= <- <-].
  apply (proj1 (Timestamp_of_date_le _ _)), day_of_le.
  now apply (max_date_ge all_df).
Qed.

(** X8: with the date range the picker starts with and no station
    selected, the start bound drops no row, and a frame whose timestamps
    are all at 00:00 is shown whole. *)
Theorem main_df_default_dates all_df start_date end_date :
  default_dates all_df = Some (start_date, end_date) ->
  (forall r, r ∈ all_df -> Timestamp_of_date start_date <= date r) /\
  (Forall at_midnight all_df -> main_df all_df start_date end_date [] = all_df).
Proof.
  intros Hdef. split.
  - intros r. now apply (default_dates_start all_df start_date end_date).
  - intros Hmid. unfold main_df.
    now apply filter_Forall_id, default_dates_mask.
Qed.

Lemma main_df_default_dates_witness :
  let all_df := [reading 15765 0 "Dongsi" (Num 40);
                 reading 15767 0 "Dongsi" (Num 60)] in
  main_df all_df 15765 15767 [] = all_df.
Proof.
  intros all_df.
  apply (proj2 (main_df_default_dates all_df 15765 15767 eq_refl)).
  repeat constructor.
Defined.

(** ** Means *)

(** X9: a mean of the page (the two metrics, a daily mean, a station mean)
    is NaN exactly when its column has no number: every cell missing, or no
    row at all. *)
Theorem column_mean_NaN_iff (col : Row string -> value) df :
  mean (col <$> df) = NaN <-> forall r, r ∈ df -> col r = NaN.
Proof.
  rewrite mean_NaN_iff, Forall_fmap, Forall_forall. reflexivity.
Qed.

Lemma column_mean_NaN_iff_witness :
  avg_pm10 [reading 15765 0 "Dongsi" (Num 40);
            reading 15765 1 "Dongsi" (Num 120)] = NaN.
Proof.
  apply (proj2 (column_mean_NaN_iff PM10 _)).
  intros r Hr. rewrite !elem_of_cons in Hr.
  destruct Hr as [->|[->|Hr]]; [reflexivity|reflexivity|].
  now apply elem_of_nil in Hr.
Defined.

(** ** Daily trend *)

Lemma in_day_span_row df r : r ∈ df -> in_day_span df (day_of (date r)).
Proof. intros Hr. exists r, r. repeat split; (assumption || lia). Qed.

(** X10: every day on which the frame has a row has an entry, and the entry
    is a number as soon as one row of that day has a PM2.5 number; hence the
    trend is empty only for the empty frame. *)
Theorem daily_df_populated_days df :
  (forall r, r ∈ df ->
     exists v, (Timestamp_of_date (day_of (date r)), v) ∈ daily_df df /\
               (PM2_5 r <> NaN -> v <> NaN)) /\
  (daily_df df = [] <-> df = []).
Proof.
  assert (forall r, r ∈ df ->
     exists v, (Timestamp_of_date (day_of (date r)), v) ∈ daily_df df /\
               (PM2_5 r <> NaN -> v <> NaN)) as Hrow.
  { intros r Hr. eexists. split.
    - apply elem_of_daily_df. exists (day_of (date r)).
      split; [reflexivity|]. split; [now apply in_day_span_row|reflexivity].
    - intros Hnum Hnan. apply Hnum.
      apply mean_NaN_iff in Hnan. rewrite Forall_fmap, Forall_forall in Hnan.
      apply (Hnan r). apply list_elem_of_filter. split; [reflexivity|assumption]. }
  split; [exact Hrow|]. split.
  - intros Hnil. destruct df as [|r df]; [reflexivity|].
    destruct (Hrow r) as (v & Hv & _); [left|].
    rewrite Hnil in Hv. now apply elem_of_nil in Hv.
  - now intros ->.
Qed.

Lemma all_equal_foldr (f : Z -> Z -> Z) k d ds :
  (forall x, x ∈ d :: ds -> x = k) -> foldr f d ds ∈ d :: ds -> foldr f d ds = k.
Proof. intros H Hin. now apply H. Qed.

(** X11: when all rows fall on one day the trend is a single point, dated
    that day, and the point is missing exactly when the overall PM2.5 metric
    is. *)
Theorem daily_df_single_day df k :
  df <> [] -> Forall (on_day k) df ->
  exists v, daily_df df = [(Timestamp_of_date k, v)] /\
            (v = NaN <-> avg_pm25 df = NaN).
Proof.
  intros Hne Hday. exists (avg_pm25 df). split; [|reflexivity].
  unfold daily_df, avg_pm25.
  destruct ((day_of ∘ date) <$> df) as [|d ds] eqn:Hd.
  { apply fmap_nil_inv in Hd. contradiction. }
  assert (forall x, x ∈ d :: ds -> x = k) as Hall.
  { rewrite <- Hd. intros x (r & -> & Hr)%list_elem_of_fmap.
    rewrite Forall_forall in Hday. exact (Hday r Hr). }
  cbv zeta.
  rewrite (all_equal_foldr Z.min k d ds Hall (proj1 (foldr_min_spec d ds))).
  rewrite (all_equal_foldr Z.max k d ds Hall (proj1 (foldr_max_spec d ds))).
  replace (k - k + 1) with 1 by lia.
  change (seqZ k 1) with [k]. simpl.
  now rewrite (filter_Forall_id (on_day k) df Hday).
Qed.

Lemma daily_df_single_day_witness :
  let df := [reading 15765 3 "Dongsi" (Num 40);
             reading 15765 9 "Changping" (Num 120)] in
  exists v, daily_df df = [(Timestamp_of_date 15765, v)] /\
            (v = NaN <-> avg_pm25 df = NaN).
Proof.
  intros df. apply daily_df_single_day; [discriminate|].
  repeat constructor.
Defined.

(** X12: the trend of a filtered frame stays inside the selection: every
    entry is 00:00 of a day between the start day and the end day. *)
Theorem daily_df_within_selection all_df start_date end_date selected_station t v :
  (t, v) ∈ daily_df (main_df all_df start_date end_date selected_station) ->
  exists k, t = Timestamp_of_date k /\ start_date <= k /\ k <= end_date.
Proof.
  intros (k & -> & (r1 & r2 & Hr1 & Hr2 & Hlo & Hhi) & _)%elem_of_daily_df.
  exists k. split; [reflexivity|].
  apply elem_of_main_df in Hr1 as (_ & [H1 _]%date_mask_days & _).
  apply elem_of_main_df in Hr2 as (_ & [_ H2]%date_mask_days & _).
  lia.
Qed.

Lemma daily_df_within_selection_witness :
  exists k, Timestamp_of_date 15765 = Timestamp_of_date k /\
            15765 <= k /\ k <= 15766.
Proof.
  apply (daily_df_within_selection
           [reading 15765 0 "Dongsi" (Num 40)] 15765 15766 []
           (Timestamp_of_date 15765) (Num 40)).
  vm_compute. left.
Defined.

Lemma daily_df_populated_days_witness :
  let r := reading 15765 3 "Dongsi" (Num 40) in
  exists v, (Timestamp_of_date (day_of (date r)), v) ∈ daily_df [r] /\
            (PM2_5 r <> NaN -> v <> NaN).
Proof.
  intros r. apply (proj1 (daily_df_populated_days [r]) r). left.
Defined.

(** ** Station comparison *)

Lemma station_avg_keys df :
  sr_station <$> station_avg df = merge_sort String.le (unique (station <$> df)).
Proof.
  unfold station_avg. rewrite <- list_fmap_compose.
  rewrite <- (list_fmap_id (merge_sort String.le (unique (station <$> df)))) at 2.
  apply list_fmap_ext. reflexivity.
Qed.

Lemma elem_of_station_avg_keys df s :
  s ∈ sr_station <$> station_avg df <-> exists r, r ∈ df /\ station r = s.
Proof.
  rewrite station_avg_keys, merge_sort_Permutation, elem_of_unique,
    list_elem_of_fmap.
  split.
  - intros (r & -> & Hr). now exists r.
  - intros (r & Hr & <-). now exists r.
Qed.

(** X13: the station comparison has one row for each station that occurs in
    the frame and for no other, in ascending order of the station names, and
    the four values of a row are the means over the rows of that station. *)
Theorem station_avg_groups df :
  Sorted String.le (sr_station <$> station_avg df) /\
  NoDup (sr_station <$> station_avg df) /\
  (forall s, s ∈ sr_station <$> station_avg df <->
             exists r, r ∈ df /\ station r = s) /\
  (forall g, g ∈ station_avg df ->
     let rows := filter (at_station (sr_station g)) df in
     rows <> [] /\
     sr_PM2_5 g = mean (PM2_5 <$> rows) /\ sr_PM10 g = mean (PM10 <$> rows) /\
     sr_SO2 g = mean (SO2 <$> rows) /\ sr_NO2 g = mean (NO2 <$> rows)).
Proof.
  split; [|split; [|split]].
  - rewrite station_avg_keys. apply Sorted_merge_sort, _.
  - rewrite station_avg_keys, merge_sort_Permutation. apply NoDup_unique.
  - apply elem_of_station_avg_keys.
  - intros g Hg. cbv zeta.
    assert (sr_station g ∈ sr_station <$> station_avg df) as Hk
      by now apply list_elem_of_fmap_2.
    apply elem_of_station_avg_keys in Hk as (r & Hr & Hst).
    split.
    + intros Hnil.
      assert (r ∈ filter (at_station (sr_station g)) df) as Hin
        by (apply list_elem_of_filter; split; assumption).
      rewrite Hnil in Hin. now apply elem_of_nil in Hin.
    + unfold station_avg in Hg.
      apply list_elem_of_fmap in Hg as (k & -> & _). simpl. repeat split.
Qed.

Lemma station_avg_groups_witness :
  let df := [reading 15765 3 "Dongsi" (Num 40);
             reading 15765 9 "Changping" (Num 120)] in
  "Changping" ∈ sr_station <$> station_avg df.
Proof.
  intros df. apply (proj1 (proj2 (proj2 (station_avg_groups df)))).
  exists (reading 15765 9 "Changping" (Num 120)).
  split; [right; left|reflexivity].
Defined.

(** X14: with a non-empty station selection the comparison shows selected
    stations only, and a selected station is shown exactly when it has a row
    in the date range. *)
Theorem station_avg_selected all_df start_date end_date selected_station s :
  selected_station <> [] ->
  (s ∈ sr_station <$>
         station_avg (main_df all_df start_date end_date selected_station) <->
   s ∈ selected_station /\
   exists r, r ∈ all_df /\ station r = s /\ date_mask start_date end_date r).
Proof.
  intros Hne. rewrite elem_of_station_avg_keys. split.
  - intros (r & (Hr & Hmask & [Hnil|Hin])%elem_of_main_df & <-);
      [contradiction|].
    split; [assumption|]. now exists r.
  - intros (Hs & r & Hr & <- & Hmask). exists r. split; [|reflexivity].
    apply elem_of_main_df. tauto.
Qed.

Lemma station_avg_selected_witness :
  let all_df := [reading 15765 0 "Dongsi" (Num 40);
                 reading 15765 0 "Changping" (Num 120)] in
  "Dongsi" ∈ sr_station <$> station_avg (main_df all_df 15765 15765 ["Dongsi"]) <->
  "Dongsi" ∈ ["Dongsi"] /\
  exists r, r ∈ all_df /\ station r = "Dongsi" /\ date_mask 15765 15765 r.
Proof.
  intros all_df. apply station_avg_selected. discriminate.
Defined.

Lemma unique_all_equal {A} `{EqDecision A} (l : list A) x :
  l <> [] -> Forall (λ y, y = x) l -> unique l = [x].
Proof.
  intros Hne Hall.
  assert (forall y, y ∈ unique l -> y = x) as Hx.
  { intros y Hy. apply (proj1 (elem_of_unique l y)) in Hy.
    rewrite Forall_forall in Hall. exact (Hall y Hy). }
  pose proof (NoDup_unique l) as Hnd.
  destruct (unique l) as [|a [|b t]] eqn:Hu.
  - apply unique_nil_inv in Hu. contradiction.
  - f_equal. apply Hx. left.
  - exfalso. apply NoDup_cons in Hnd as [Hnotin _]. apply Hnotin.
    rewrite (Hx a), (Hx b); [left|right; left|left].
Qed.

(** X15: when the filtered frame holds a single station, the comparison is
    one row, of that station, and its PM2.5 and PM10 values are missing
    exactly when the two overall metrics are. *)
Theorem station_avg_single_station df s :
  df <> [] -> Forall (at_station s) df ->
  exists g, station_avg df = [g] /\ sr_station g = s /\
            (sr_PM2_5 g = NaN <-> avg_pm25 df = NaN) /\
            (sr_PM10 g = NaN <-> avg_pm10 df = NaN).
Proof.
  intros Hne Hall.
  exists (mkStationRow s (avg_pm25 df) (avg_pm10 df)
                       (mean (SO2 <$> df)) (mean (NO2 <$> df))).
  split; [|now repeat split].
  unfold station_avg, avg_pm25, avg_pm10.
  rewrite (unique_all_equal (station <$> df) s).
  - change (merge_sort String.le [s]) with [s]. simpl.
    now rewrite (filter_Forall_id (at_station s) df Hall).
  - intros Hnil. apply fmap_nil_inv in Hnil. contradiction.
  - apply Forall_fmap. exact Hall.
Qed.

Lemma station_avg_single_station_witness :
  let df := main_df [reading 15765 0 "Dongsi" (Num 40);
                     reading 15765 5 "Changping" (Num 120);
                     reading 15766 0 "Dongsi" (Num 60)] 15765 15766 ["Dongsi"] in
  exists g, station_avg df = [g] /\ sr_station g = "Dongsi" /\
            (sr_PM2_5 g = NaN <-> avg_pm25 df = NaN) /\
            (sr_PM10 g = NaN <-> avg_pm10 df = NaN).
Proof.
  intros df. apply station_avg_single_station; [discriminate|].
  repeat constructor.
Defined.

Lemma melt_keys avg :
  (λ x, x.1) <$> melt avg =
  (((λ s, (s, "PM2.5")) <$> (sr_station <$> avg)) ++
   ((λ s, (s, "PM10")) <$> (sr_station <$> avg)) ++
   ((λ s, (s, "SO2")) <$> (sr_station <$> avg)) ++
   ((λ s, (s, "NO2")) <$> (sr_station <$> avg)))%list.
Proof.
  unfold melt. rewrite !fmap_app, <- !list_fmap_compose. reflexivity.
Qed.

Lemma elem_of_pair_column (p : string) (ks : list string) s q :
  (s, q) ∈ (λ s, (s, p)) <$> ks <-> s ∈ ks /\ q = p.
Proof.
  rewrite list_elem_of_fmap. split.
  - intros (k & [= -> ->] & Hk). now split.
  - intros [Hs ->]. now exists s.
Qed.

Lemma NoDup_pair_column (p : string) (ks : list string) :
  NoDup ks -> NoDup ((λ s, (s, p)) <$> ks).
Proof.
  intros Hnd. apply NoDup_fmap_2; [|exact Hnd].
  intros s1 s2 [= ->]. reflexivity.
Qed.

Lemma elem_of_melt_keys avg s p :
  (s, p) ∈ (λ x, x.1) <$> melt avg <->
  s ∈ sr_station <$> avg /\ p ∈ ["PM2.5"; "PM10"; "SO2"; "NO2"].
Proof.
  rewrite melt_keys, !elem_of_app, !elem_of_pair_column, !elem_of_cons,
    elem_of_nil.
  tauto.
Qed.

Lemma NoDup_melt_keys avg :
  NoDup (sr_station <$> avg) -> NoDup ((λ x, x.1) <$> melt avg).
Proof.
  intros Hnd. rewrite melt_keys.
  repeat (apply NoDup_app; split; [now apply NoDup_pair_column|split]);
    try now apply NoDup_pair_column.
  all: intros [s q] [_ ->]%elem_of_pair_column;
    rewrite ?elem_of_app, !elem_of_pair_column; intros H;
    repeat (destruct H as [H|H]); destruct H as [_ [=]].
Qed.

(** X16: the table behind the bar chart exists only for a non-empty station
    selection.  It then has exactly one row for each pair of a station of
    the filtered frame and one of the pollutants PM2.5, PM10, SO2, NO2 (so
    four rows per station), stacked pollutant by pollutant with the
    stations ascending, and the value of a row is the mean of that
    pollutant over the rows of that station. *)
Theorem station_melt_rows selected_station df :
  match station_melt selected_station df with
  | None => selected_station = []
  | Some t =>
      selected_station <> [] /\
      (λ x, x.1) <$> t =
        (((λ s, (s, "PM2.5")) <$> (sr_station <$> station_avg df)) ++
         ((λ s, (s, "PM10")) <$> (sr_station <$> station_avg df)) ++
         ((λ s, (s, "SO2")) <$> (sr_station <$> station_avg df)) ++
         ((λ s, (s, "NO2")) <$> (sr_station <$> station_avg df)))%list /\
      NoDup ((λ x, x.1) <$> t) /\
      (forall s p, (exists c, (s, p, c) ∈ t) <->
         (exists r, r ∈ df /\ station r = s) /\
         p ∈ ["PM2.5"; "PM10"; "SO2"; "NO2"]) /\
      length t = (4 * length (station_list df))%nat /\
      (forall s c,
         let rows := filter (at_station s) df in
         ((s, "PM2.5", c) ∈ t -> c = mean (PM2_5 <$> rows)) /\
         ((s, "PM10", c) ∈ t -> c = mean (PM10 <$> rows)) /\
         ((s, "SO2", c) ∈ t -> c = mean (SO2 <$> rows)) /\
         ((s, "NO2", c) ∈ t -> c = mean (NO2 <$> rows)))
  end.
Proof.
  unfold station_melt. destruct selected_station as [|x sel]; [reflexivity|].
  split; [discriminate|]. split; [apply melt_keys|].
  assert (NoDup (sr_station <$> station_avg df)) as Hnd.
  { rewrite station_avg_keys, merge_sort_Permutation. apply NoDup_unique. }
  split; [now apply NoDup_melt_keys|]. split; [|split].
  - intros s p. rewrite <- elem_of_station_avg_keys, <- elem_of_melt_keys.
    rewrite list_elem_of_fmap. split.
    + intros [c Hc]. now exists (s, p, c).
    + intros ([[s' p'] c] & [= -> ->] & Hc). now exists c.
  - unfold melt. rewrite !length_app, !length_fmap.
    rewrite <- (length_fmap sr_station), station_avg_keys.
    rewrite (Permutation_length (merge_sort_Permutation _ _)).
    unfold station_list. lia.
  - intros s c. cbv zeta. unfold melt, station_avg.
    rewrite !elem_of_app, <- !list_fmap_compose, !list_elem_of_fmap.
    repeat split; intros H; repeat (destruct H as [H|H]);
      destruct H as (k & [= -> ->] & _); reflexivity.
Qed.

(** ** Category distribution *)

Section CountFacts.
Context {A : Type} `{EqDecision A}.
Implicit Types (l ks : list A) (x : A).

Lemma occurrences_cons x y l :
  occurrences x (y :: l) =
  ((if decide (y = x) then 1 else 0) + occurrences x l)%nat.
Proof.
  unfold occurrences. rewrite filter_cons. now destruct (decide (y = x)).
Qed.

Lemma sum_indicator y ks :
  NoDup ks -> y ∈ ks ->
  sum_list_with (λ x, if decide (y = x) then 1 else 0)%nat ks = 1%nat.
Proof.
  induction 1 as [|k ks Hk Hnd IH]; intros Hy; [now apply elem_of_nil in Hy|].
  simpl. destruct (decide (y = k)) as [->|Hne].
  - clear IH Hy. f_equal.
    induction ks as [|k' ks IH]; [reflexivity|]. simpl.
    rewrite not_elem_of_cons in Hk. destruct Hk as [Hne Hk].
    rewrite decide_False by assumption.
    apply NoDup_cons in Hnd as [_ Hnd]. now apply IH.
  - apply elem_of_cons in Hy as [->|Hy]; [contradiction|]. now apply IH.
Qed.

Lemma sum_occurrences ks l :
  NoDup ks -> (forall x, x ∈ l -> x ∈ ks) ->
  sum_list_with (λ x, occurrences x l) ks = length l.
Proof.
  intros Hnd. induction l as [|y l IH]; intros Hsub.
  - induction ks as [|k ks IHk]; [reflexivity|]. simpl.
    apply NoDup_cons in Hnd as [_ Hnd]. now rewrite IHk.
  - assert (sum_list_with (λ x, occurrences x (y :: l)) ks =
            (sum_list_with (λ x, if decide (y = x) then 1 else 0) ks +
             sum_list_with (λ x, occurrences x l) ks)%nat) as ->.
    { clear. induction ks as [|k ks IHk]; [reflexivity|]. simpl.
      rewrite IHk, occurrences_cons. lia. }
    rewrite sum_indicator, IH; [reflexivity| |assumption|].
    + intros x Hx. apply Hsub. now right.
    + apply Hsub. left.
Qed.

Lemma value_counts_keys l : fst <$> value_counts l ≡ₚ unique l.
Proof.
  unfold value_counts. rewrite sort_desc_Permutation, <- list_fmap_compose.
  rewrite <- (list_fmap_id (unique l)) at 2.
  apply eq_ind with (x := id <$> unique l); [reflexivity|].
  apply list_fmap_ext. reflexivity.
Qed.

Lemma value_counts_total l : sum_list_with snd (value_counts l) = length l.
Proof.
  unfold value_counts. rewrite sort_desc_Permutation.
  assert (forall ks, sum_list_with snd ((λ x, (x, occurrences x l)) <$> ks) =
                     sum_list_with (λ x, occurrences x l) ks) as Hsnd.
  { induction ks as [|k ks IHk]; [reflexivity|].
    rewrite fmap_cons. simpl. now rewrite IHk. }
  etrans; [apply Hsnd|].
  apply sum_occurrences; [apply NoDup_unique|].
  intros x. apply elem_of_unique.
Qed.
End CountFacts.

Lemma occurrences_fmap {A B} `{EqDecision B} (f : A -> B) (y : B) (l : list A) :
  occurrences y (f <$> l) = length (filter (λ a, f a = y) l).
Proof.
  unfold occurrences. induction l as [|a l IH]; [reflexivity|].
  rewrite fmap_cons, !filter_cons.
  destruct (decide (f a = y)); simpl; now rewrite IH.
Qed.

(** X17: when the labels come from the classifier (a file without the
    category column), the distribution counts every row of the filtered
    frame exactly once: its counts add up to the number of rows. *)
Theorem category_counts_total rows start_date end_date selected_station :
  let df := main_df (preprocess (WithoutCategory rows))
              start_date end_date selected_station in
  sum_list_with snd (category_counts df) = length df.
Proof.
  cbv zeta. unfold category_counts.
  now rewrite value_counts_total, length_fmap.
Qed.

(** X18: the distribution has one entry for each category that occurs in
    the frame and for no other; the count of an entry is the number of rows
    of that category, so no entry has count zero. *)
Theorem category_counts_entries df :
  NoDup (fst <$> category_counts df) /\
  forall c n,
    (c, n) ∈ category_counts df <->
    (0 < n)%nat /\ n = length (filter (λ r, Air_Quality_Category r = c) df).
Proof.
  unfold category_counts. split.
  - rewrite value_counts_keys. apply NoDup_unique.
  - intros c n. rewrite elem_of_value_counts, occurrences_pos, occurrences_fmap.
    split.
    + intros [Hpos ->]. split; [exact Hpos|reflexivity].
    + intros [Hpos ->]. split; [exact Hpos|reflexivity].
Qed.

Lemma category_counts_entries_witness :
  let df := [reading 15765 0 "Dongsi" (Num 40);
             reading 15765 1 "Dongsi" (Num 45)] in
  ("Good", 2%nat) ∈ category_counts df.
Proof.
  intros df. apply (proj2 (category_counts_entries df) "Good" 2%nat).
  split; [lia|reflexivity].
Defined.



(** ** First view *)

(** X20: on the first view, with the sidebar defaults untouched, a frame
    whose timestamps are all at 00:00 is narrowed to the rows of the station
    of its first row, whatever their dates. *)
Theorem main_df_first_view all_df r0 rest start_date end_date selected_station :
  all_df = r0 :: rest ->
  Forall at_midnight all_df ->
  default_dates all_df = Some (start_date, end_date) ->
  default_station all_df = Returned selected_station ->
  main_df all_df start_date end_date selected_station =
  filter (at_station (station r0)) all_df.
Proof.
  intros Hcons Hmid Hdates Hst.
  assert (selected_station = [station r0]) as ->.
  { subst all_df. revert Hst. unfold default_station, station_list, unique.
    simpl. destruct (decide (station r0 ∈ [])) as [Hnil|_];
      [now apply elem_of_nil in Hnil|]. now intros [= <-]. }
  unfold main_df.
  rewrite (filter_Forall_id (date_mask start_date end_date) all_df)
    by now apply default_dates_mask.
  apply list_filter_iff. intros r. unfold isin, at_station.
  apply list_elem_of_singleton.
Qed.

Lemma main_df_first_view_witness :
  let r0 := reading 15765 0 "Dongsi" (Num 40) in
  let rest := [reading 15765 0 "Changping" (Num 120);
               reading 15767 0 "Dongsi" (Num 60)] in
  main_df (r0 :: rest) 15765 15767 ["Dongsi"] =
  filter (at_station (station r0)) (r0 :: rest).
Proof.
  intros r0 rest.
  apply (main_df_first_view (r0 :: rest) r0 rest 15765 15767 ["Dongsi"]);
    [reflexivity|repeat constructor|reflexivity|reflexivity].
Defined.
